(** * MoDEL-CNS database loader: identifier coercion and the delete command

    A shallow embedding of
    - [src/commands/delete/index.js] (the [deleteFunction] command), and
    - the coercion functions and the command table of the command line
      entry point ([idCoerce], [accessionFormat], [accessionCoerce],
      [idOrAccessionCoerce], and the [coerce] options of each command).

    JavaScript strings are modelled by [string]; the model covers ASCII
    input (identifiers and accessions typed on the command line), on
    which [trim] and [toUpperCase] below coincide with the methods of
    [String.prototype]. *)

From Stdlib Require Import Bool List ZArith Lia Ascii String.
Import ListNotations.
Local Open Scope string_scope.

Set Warnings "-register-all".

(** ** Completions *)

(** What a [throw] carries: the constructor that built the error and its message. *)
Inductive JsError : Type :=
| ReferenceError (message : string)
| TypeError (message : string)
| Error (message : string).

(** The outcome of evaluating an expression or a function body. *)
Inductive Completion (A : Type) : Type :=
| Normal (value : A)
| Throw (error : JsError).
Arguments Normal {A} value.
Arguments Throw {A} error.

(** ** Strings *)

Module JsString.

(** Code units removed by [String.prototype.trim], below 128:
    TAB, LF, VT, FF, CR and SPACE. *)
Definition is_white_space (c : ascii) : bool :=
  let n := nat_of_ascii c in
  ((9 <=? n) && (n <=? 13) || (n =? 32))%nat.

Definition is_lower (c : ascii) : bool :=
  let n := nat_of_ascii c in ((97 <=? n) && (n <=? 122))%nat.

(** [\d] of a RegExp without the unicode flag: the digits 0 to 9. *)
Definition is_digit (c : ascii) : bool :=
  let n := nat_of_ascii c in ((48 <=? n) && (n <=? 57))%nat.

Definition is_upper (c : ascii) : bool :=
  let n := nat_of_ascii c in ((65 <=? n) && (n <=? 90))%nat.

(** A letter or a digit: a character that stands for itself in the
    source of a RegExp. *)
Definition is_alphanumeric (c : ascii) : bool :=
  is_digit c || is_lower c || is_upper c.

(** A code unit below 128. *)
Definition is_seven_bit (c : ascii) : bool := (nat_of_ascii c <? 128)%nat.

Definition upper_char (c : ascii) : ascii :=
  if is_lower c then ascii_of_nat (nat_of_ascii c - 32) else c.

Fixpoint toUpperCase (s : string) : string :=
  match s with
  | EmptyString => EmptyString
  | String c r => String (upper_char c) (toUpperCase r)
  end.

Fixpoint trimStart (s : string) : string :=
  match s with
  | EmptyString => EmptyString
  | String c r => if is_white_space c then trimStart r else s
  end.

Fixpoint trimEnd (s : string) : string :=
  match s with
  | EmptyString => EmptyString
  | String c r =>
      match trimEnd r with
      | EmptyString => if is_white_space c then EmptyString else String c EmptyString
      | r' => String c r'
      end
  end.

Definition trim (s : string) : string := trimEnd (trimStart s).

Fixpoint all_chars (p : ascii -> bool) (s : string) : bool :=
  match s with
  | EmptyString => true
  | String c r => p c && all_chars p r
  end.

(** [strip_prefix p s] is the rest of [s] after its prefix [p], when [s] starts with [p]. *)
Fixpoint strip_prefix (p s : string) : option string :=
  match p, s with
  | EmptyString, _ => Some s
  | String a p', String b s' => if Ascii.eqb a b then strip_prefix p' s' else None
  | String _ _, EmptyString => None
  end.

(** [includes s sub], as [String.prototype.includes]. *)
Fixpoint includes (s sub : string) : bool :=
  match strip_prefix sub s with
  | Some _ => true
  | None => match s with
            | EmptyString => false
            | String _ r => includes r sub
            end
  end.

(** ToBoolean on a string: only the empty string is falsy. *)
Definition truthy (s : string) : bool :=
  match s with EmptyString => false | _ => true end.

End JsString.

(** ** The identifier coercions of the command line entry point *)

(** [ObjectId] of the mongodb driver, called on a string: the object id
    built from it, or what the constructor throws; and the text of an
    object id in a template literal. *)
Class MongoDriver : Type := {
  ObjectIdT : Type;
  ObjectId : string -> Completion ObjectIdT;
  ObjectId_toString : ObjectIdT -> string
}.

(** What the entry point takes from the process it runs in:
    [process.env.ACCESSION_PREFIX], [None] when the variable is not set;
    and the RegExp engine, [RegExp_test source text] being
    [new RegExp(source).test(text)]. (A source the engine refuses stops
    the entry point while it loads; the model covers what runs after.) *)
Class ProcessEnv : Type := {
  ACCESSION_PREFIX : option string;
  RegExp_test : string -> string -> bool
}.

Section Resolver.

Context {driver : MongoDriver} {env : ProcessEnv}.

(** What a coercion hands to a command as its [id]. *)
Inductive Identifier : Type :=
| IdObject (oid : ObjectIdT)
| IdAccession (accession : string).

(** [const idCoerce = id => ObjectId(id);] *)
Definition idCoerce (id : string) : Completion ObjectIdT := ObjectId id.

(** The text concatenated between ['^'] and ['\\d{5}$']: string
    concatenation turns a missing variable into the text [undefined]. *)
Definition accession_prefix : string :=
  match ACCESSION_PREFIX with
  | Some p => p
  | None => "undefined"
  end.

(** The source of [accessionFormat]: the prefix goes into the pattern
    as it is, without escaping. *)
Definition accessionFormat_source : string :=
  "^" ++ accession_prefix ++ "\d{5}$".

(** A prefix made of letters and digits only (as in the commented-out
    [/^MCNS\d{5}$/]): each of its characters stands for itself in the
    pattern. *)
Definition literal_prefix (p : string) : bool :=
  JsString.all_chars JsString.is_alphanumeric p.

(** What [^<prefix>\d{5}$] tests when the prefix is literal: the text is
    the prefix followed by exactly five digits. *)
Definition literal_test (s : string) : bool :=
  match JsString.strip_prefix accession_prefix s with
  | Some digits =>
      (String.length digits =? 5)%nat && JsString.all_chars JsString.is_digit digits
  | None => false
  end.

(** [accessionFormat.test]: read off the pattern when the prefix is
    literal, left to the RegExp engine when the prefix holds any other
    character, which the engine may take as an operator. *)
Definition accessionFormat_test (s : string) : bool :=
  if literal_prefix accession_prefix then literal_test s
  else RegExp_test accessionFormat_source s.

Definition accessionCoerce (accession : string) : Completion string :=
  let output := JsString.toUpperCase (JsString.trim accession) in
  if negb (accessionFormat_test output) then Throw (Error "Not a valid accession")
  else Normal output.

(** ToBoolean on the [output] variable of [idOrAccessionCoerce]
    ([None] is [undefined]; an object is always truthy). *)
Definition output_truthy (output : option Identifier) : bool :=
  match output with
  | None => false
  | Some (IdObject _) => true
  | Some (IdAccession a) => JsString.truthy a
  end.

(** [idOrAccessionCoerce]; the argument is [None] for [null], the
    result [Normal None] is [return null]. *)
Definition idOrAccessionCoerce (idOrAccession : option string)
  : Completion (option Identifier) :=
  match idOrAccession with
  | None => Normal None
  | Some s =>
      if negb (JsString.truthy s) then Normal None
      else
        let output :=
          match idCoerce s with
          | Normal oid => Some (IdObject oid)
          | Throw _ =>
              match accessionCoerce s with
              | Normal a => Some (IdAccession a)
              | Throw _ => None
              end
          end in
        if output_truthy output then Normal output
        else Throw (Error "Invalid ID or accession")
  end.

(** A [coerce: idCoerce] option: the command receives the object id. *)
Definition idCoerce_option (raw : string) : Completion (option Identifier) :=
  match idCoerce raw with
  | Normal oid => Normal (Some (IdObject oid))
  | Throw e => Throw e
  end.

(** The commands of the entry point and the [coerce] each one declares
    for its identifier: the [--append] option of [load] and the [id]
    positional of [publish], [unpublish] and [cleanup]; [list] takes
    no identifier. *)
Inductive Command : Type :=
| cmd_load | cmd_publish | cmd_unpublish | cmd_list | cmd_cleanup.

Definition id_coerce_of (c : Command)
  : option (string -> Completion (option Identifier)) :=
  match c with
  | cmd_load => Some (fun raw => idOrAccessionCoerce (Some raw))
  | cmd_publish => Some idCoerce_option
  | cmd_unpublish => Some (fun raw => idOrAccessionCoerce (Some raw))
  | cmd_list => None
  | cmd_cleanup => Some idCoerce_option
  end.

End Resolver.

Arguments Identifier {driver}.
Arguments IdObject {driver} oid.
Arguments IdAccession {driver} accession.

(** ** The object id constructor of the driver

    [ObjectId(id)] of the bson package on a string argument: the string is
    accepted when it has 12 characters (taken as the 12 bytes) or when it
    has 24 hexadecimal characters; anything else throws. Used to evaluate
    the coercions on concrete input. *)
Module Bson.

Definition is_hex (c : ascii) : bool :=
  let n := nat_of_ascii c in
  (JsString.is_digit c
   || ((97 <=? n) && (n <=? 102)) || ((65 <=? n) && (n <=? 70)))%nat.

Definition isValid (id : string) : bool :=
  (String.length id =? 12)%nat
  || ((String.length id =? 24)%nat && JsString.all_chars is_hex id).

Definition hex_value (c : ascii) : nat :=
  let n := nat_of_ascii c in
  if JsString.is_digit c then n - 48
  else if (97 <=? n)%nat then n - 87 else n - 55.

Fixpoint createFromHexString (s : string) : string :=
  match s with
  | String a (String b r) =>
      String (ascii_of_nat (16 * hex_value a + hex_value b)) (createFromHexString r)
  | _ => EmptyString
  end.

Definition hex_digit (n : nat) : ascii :=
  ascii_of_nat (if (n <? 10)%nat then 48 + n else 87 + n).

Fixpoint toHexString (bytes : string) : string :=
  match bytes with
  | EmptyString => EmptyString
  | String c r =>
      let n := nat_of_ascii c in
      String (hex_digit (n / 16)) (String (hex_digit (n mod 16)) (toHexString r))
  end.

(** An object id is its 12 bytes. *)
Definition ObjectId (id : string) : Completion string :=
  if isValid id then
    Normal (if (String.length id =? 24)%nat then createFromHexString id else id)
  else
    Throw (TypeError
      "Argument passed in must be a single String of 12 bytes or a string of 24 hex characters").

End Bson.

(** ** Values of the documents *)

(** The JavaScript values a stored document is made of. An object is the
    list of its own properties. *)
Inductive JsValue : Type :=
| JsUndefined
| JsNull
| JsBoolean (b : bool)
| JsNumber (n : Z)
| JsStr (s : string)
| JsObject (properties : list (string * JsValue)).

Fixpoint own_property (properties : list (string * JsValue)) (key : string) : JsValue :=
  match properties with
  | [] => JsUndefined
  | (k, v) :: rest => if String.eqb k key then v else own_property rest key
  end.

(** Member access [v.key]: a [TypeError] on [undefined] and [null], the
    own property of an object, [undefined] on the other primitives (none
    of the keys read by the delete command is inherited). *)
Definition getProp (v : JsValue) (key : string) : Completion JsValue :=
  match v with
  | JsUndefined => Throw (TypeError ("Cannot read property '" ++ key ++ "' of undefined"))
  | JsNull => Throw (TypeError ("Cannot read property '" ++ key ++ "' of null"))
  | JsObject properties => Normal (own_property properties key)
  | _ => Normal JsUndefined
  end.

(** Strict equality with a string literal, [v === 'y']. *)
Definition strict_eq_string (v : JsValue) (lit : string) : bool :=
  match v with
  | JsStr s => String.eqb s lit
  | _ => false
  end.

(** ** The delete command *)

(** What the delete module takes from its surroundings: the collection
    handles of the database handler, compared with [===]; the internal
    state of the handler; [chalk.cyan] and [chalk.yellow]. *)
Class Runtime : Type := {
  Collection : Type;
  Collection_eq_dec : forall a b : Collection, {a = b} + {a <> b};
  Handler : Type;
  chalk_cyan : string -> string;
  chalk_yellow : string -> string
}.

Section Delete.

Context {driver : MongoDriver} {runtime : Runtime}.

Definition id_toString (id : Identifier) : string :=
  match id with
  | IdObject oid => ObjectId_toString oid
  | IdAccession a => a
  end.

(** What [database.findId] resolves to when something is found. *)
Record Target : Type := { collection : Collection; document : JsValue }.

(** The members of [database] the command uses. A method runs on the
    handler's state and resolves or rejects. *)
Record Database : Type := {
  analyses : Collection;
  files : Collection;
  findId : Identifier -> Handler -> Completion (option Target) * Handler;
  nameCollectionDocument : Collection -> string;
  syncProject : JsValue -> Handler -> Completion JsValue * Handler;
  deleteAnalysis : JsValue -> JsValue -> Handler -> Completion JsValue * Handler;
  deleteFile : JsValue -> JsValue -> Handler -> Completion JsValue * Handler
}.

(** What the command does to the outside, in order. *)
Inductive Event : Type :=
| ConsoleLog (text : string)
| ConsoleError (text : string)
| Prompt (text : string)
| FindId (id : Identifier)
| SyncProject (project : JsValue)
| DeleteAnalysis (name mdIndex : JsValue)
| DeleteFile (filename mdIndex : JsValue).

(** The world the command runs in: the handler, the lines waiting on
    standard input and the events so far (oldest first). *)
Record World : Type := {
  handler : Handler;
  stdin : list string;
  trace : list Event
}.

Definition M (A : Type) : Type := World -> Completion A * World.

Definition ret {A} (a : A) : M A := fun w => (Normal a, w).

Definition throw {A} (e : JsError) : M A := fun w => (Throw e, w).

Definition bind {A B} (m : M A) (k : A -> M B) : M B :=
  fun w =>
    match m w with
    | (Normal a, w') => k a w'
    | (Throw e, w') => (Throw e, w')
    end.

Definition lift {A} (c : Completion A) : M A := fun w => (c, w).

Definition emit (e : Event) : M unit :=
  fun w => (Normal tt, {| handler := handler w; stdin := stdin w; trace := trace w ++ [e] |}).

(** An awaited call of a handler method: the event, then the method
    on the handler's state. *)
Definition call {A} (e : Event) (method : Handler -> Completion A * Handler) : M A :=
  fun w =>
    let (r, h) := method (handler w) in
    (r, {| handler := h; stdin := stdin w; trace := trace w ++ [e] |}).

Local Notation "x <- m ;; k" := (bind m (fun x => k))
  (at level 61, m at next level, right associativity).

Definition console_log (text : string) : M JsValue :=
  _ <- emit (ConsoleLog text) ;; ret JsUndefined.

Definition console_error (text : string) : M JsValue :=
  _ <- emit (ConsoleError text) ;; ret JsUndefined.

(** Lines 24 to 43: the deleting protocol, by the collection of the target. *)
Definition deletionProtocol (database : Database) (target : Target)
  (documentName : string) : M JsValue :=
  if Collection_eq_dec (collection target) (analyses database) then
    project <- lift (getProp (document target) "project") ;;
    _ <- call (SyncProject project) (syncProject database project) ;;
    name <- lift (getProp (document target) "name") ;;
    mdIndex <- lift (getProp (document target) "md") ;;
    call (DeleteAnalysis name mdIndex) (deleteAnalysis database name mdIndex)
  else if Collection_eq_dec (collection target) (files database) then
    metadata <- lift (getProp (document target) "metadata") ;;
    project <- lift (getProp metadata "project") ;;
    _ <- call (SyncProject project) (syncProject database project) ;;
    filename <- lift (getProp (document target) "filename") ;;
    metadata <- lift (getProp (document target) "metadata") ;;
    mdIndex <- lift (getProp metadata "md") ;;
    call (DeleteFile filename mdIndex) (deleteFile database filename mdIndex)
  else
    throw (Error ("Deletion of " ++ documentName ++ " is not yet supported")).

(** Lines 20 to 23: the confirmation, at a given binding of the
    identifier [userConfirm] ([None]: no binding in scope). The result
    is whether the command goes on. *)
Definition confirmation_step (userConfirm : option (string -> M JsValue))
  (confirm : bool) (documentName : string) (id : Identifier) : M bool :=
  if negb confirm then
    match userConfirm with
    | None => throw (ReferenceError "userConfirm is not defined")
    | Some ask =>
        confirmation <- ask ("Confirm deletion of of " ++ documentName
                             ++ " with id " ++ id_toString id ++ " [y/*]") ;;
        ret (strict_eq_string confirmation "y" || strict_eq_string confirmation "Y")
    end
  else ret true.

(** The arguments object [{ id, confirm }]; [confirm] is [false] for
    every falsy value, a missing property included. *)
Record Args : Type := { id : Identifier; confirm : bool }.

(** The body of [deleteFunction] at a given binding of [userConfirm]. *)
Definition deleteFunction_in (userConfirm : option (string -> M JsValue))
  (args : Args) (database : Database) : M JsValue :=
  _ <- console_log (chalk_cyan ("== Deletion of '" ++ id_toString (id args) ++ "'")) ;;
  target <- call (FindId (id args)) (findId database (id args)) ;;
  match target with
  | None =>
      console_error (chalk_yellow ("Nothing found for ID '" ++ id_toString (id args) ++ "'"))
  | Some target =>
      let documentName := nameCollectionDocument database (collection target) in
      proceed <- confirmation_step userConfirm (confirm args) documentName (id args) ;;
      if proceed then deletionProtocol database target documentName
      else console_log "Data deletion has been aborted"
  end.

(** [deleteFunction] as the module defines it: the module binds [chalk]
    (line 2) and [deleteFunction] (line 6) and nothing else, so
    [userConfirm] on line 21 has no binding. *)
Definition deleteFunction : Args -> Database -> M JsValue :=
  deleteFunction_in None.

(** Modelled from the spec: the confirmation of section 4.3, which the
    delete module does not define. It writes the prompt, takes the next
    line of standard input and returns it; with nothing left to read the
    response is empty. *)
Definition userConfirm_prompt (prompt : string) : M JsValue :=
  fun w =>
    (Normal (JsStr (hd "" (stdin w))),
     {| handler := handler w; stdin := tl (stdin w); trace := trace w ++ [Prompt prompt] |}).

(** The calls that change or refresh data. *)
Definition is_sync_or_delete (e : Event) : bool :=
  match e with
  | SyncProject _ | DeleteAnalysis _ _ | DeleteFile _ _ => true
  | _ => false
  end.

Definition is_prompt (e : Event) : bool :=
  match e with
  | Prompt _ => true
  | _ => false
  end.

Definition sync_and_delete_calls (t : list Event) : list Event :=
  filter is_sync_or_delete t.

Definition prompts (t : list Event) : list Event := filter is_prompt t.

(** The world [w] once the handler is in state [h] and [events] have
    been added. *)
Definition after (w : World) (h : Handler) (events : list Event) : World :=
  {| handler := h; stdin := stdin w; trace := trace w ++ events |}.

(** The same world with other lines waiting on standard input. *)
Definition with_stdin (input : list string) (w : World) : World :=
  {| handler := handler w; stdin := input; trace := trace w |}.

(** The title line of the command (line 12). *)
Definition title (args : Args) : string :=
  chalk_cyan ("== Deletion of '" ++ id_toString (id args) ++ "'").

End Delete.

(** ** Relating inputs that differ in case or in surrounding white space *)

Module Variant.
Import JsString.

(** The same character, or the same letter in the other case. *)
Definition same_letter (a b : ascii) : bool :=
  Ascii.eqb a b
  || (is_lower a && Ascii.eqb (upper_char a) b)
  || (is_lower b && Ascii.eqb a (upper_char b)).

Fixpoint differ_in_case_only (s t : string) : bool :=
  match s, t with
  | EmptyString, EmptyString => true
  | String a s', String b t' => same_letter a b && differ_in_case_only s' t'
  | _, _ => false
  end.

(** [s] and [t] are one text, up to the case of its letters, between
    any white space on either side. *)
Definition differ_in_case_or_padding (s t : string) : Prop :=
  exists ls rs lt rt cs ct,
    s = ls ++ cs ++ rs /\ t = lt ++ ct ++ rt /\
    all_chars is_white_space ls = true /\ all_chars is_white_space rs = true /\
    all_chars is_white_space lt = true /\ all_chars is_white_space rt = true /\
    differ_in_case_only cs ct = true.

End Variant.

(** ** Concrete surroundings, to run the commands on examples *)

Definition bson_driver : MongoDriver :=
  {| ObjectIdT := string;
     ObjectId := Bson.ObjectId;
     ObjectId_toString := Bson.toHexString |}.

(** The prefix of the commented-out pattern in the entry point. The
    prefix is literal, so the engine is not consulted. *)
Definition env_MCNS : ProcessEnv :=
  {| ACCESSION_PREFIX := Some "MCNS"; RegExp_test := fun _ _ => false |}.

Module Demo.

Inductive DemoCollection : Type := Projects | Analyses | Files.

Definition DemoCollection_eq_dec (a b : DemoCollection) : {a = b} + {a <> b}.
Proof. decide equality. Defined.

(** The handler holds the stored documents by the text of their id;
    chalk runs with colours off. *)
Definition runtime : Runtime :=
  {| Collection := DemoCollection;
     Collection_eq_dec := DemoCollection_eq_dec;
     Handler := list (string * (DemoCollection * JsValue));
     chalk_cyan := fun text => text;
     chalk_yellow := fun text => text |}.

Fixpoint lookup (key : string) (store : list (string * (DemoCollection * JsValue)))
  : option (DemoCollection * JsValue) :=
  match store with
  | [] => None
  | (k, d) :: rest => if String.eqb k key then Some d else lookup key rest
  end.

Definition database : @Database bson_driver runtime :=
  {| analyses := Analyses : @Collection runtime;
     files := Files : @Collection runtime;
     findId := fun id (h : @Handler runtime) =>
       (Normal (option_map
                  (fun d => {| collection := fst d : @Collection runtime;
                               document := snd d |})
                  (lookup (id_toString id) h)), h);
     nameCollectionDocument := fun c : @Collection runtime =>
       match c with
       | Projects => "project"
       | Analyses => "analysis"
       | Files => "file"
       end;
     syncProject := fun _ (h : @Handler runtime) => (Normal JsUndefined, h);
     deleteAnalysis := fun _ _ (h : @Handler runtime) => (Normal JsUndefined, h);
     deleteFile := fun _ _ (h : @Handler runtime) => (Normal JsUndefined, h) |}.

Definition world (store : @Handler runtime) (input : list string) : @World bson_driver runtime :=
  {| handler := store; stdin := input; trace := [] |}.

(** An object id and its text. *)
Definition oid : @Identifier bson_driver := IdObject ("0123456789ab" : @ObjectIdT bson_driver).

Definition oid_text : string := "303132333435363738396162".

(** [{name: "md.rmsd", md: 1, project: "P1"}] *)
Definition analysis_properties : list (string * JsValue) :=
  [("name", JsStr "md.rmsd"); ("md", JsNumber 1); ("project", JsStr "P1")].

(** [{md: 2, project: "P2"}] *)
Definition file_metadata : list (string * JsValue) :=
  [("md", JsNumber 2); ("project", JsStr "P2")].

(** [{filename: "traj.xtc", metadata: {md: 2, project: "P2"}}] *)
Definition file_properties : list (string * JsValue) :=
  [("filename", JsStr "traj.xtc"); ("metadata", JsObject file_metadata)].

(** [{metadata: {filename: "traj.xtc", md: 2, project: "P2"}}] *)
Definition file_properties_nested : list (string * JsValue) :=
  [("metadata",
    JsObject [("filename", JsStr "traj.xtc"); ("md", JsNumber 2); ("project", JsStr "P2")])].

(** [{name: "A0A1"}] *)
Definition project_properties : list (string * JsValue) := [("name", JsStr "A0A1")].

(** A store with one document, under the id [oid]. *)
Definition store_of (c : DemoCollection) (properties : list (string * JsValue))
  : @Handler runtime :=
  [(oid_text, (c, JsObject properties))].

Definition target_of (c : DemoCollection) (properties : list (string * JsValue))
  : @Target runtime :=
  {| collection := c : @Collection runtime; document := JsObject properties |}.

Definition args (confirm : bool) : @Args bson_driver :=
  {| id := oid; confirm := confirm |}.

End Demo.

(** ** The path coercion of the command line entry point *)

(** The mode constants of [fs.constants] taken by [fs.accessSync]. *)
Inductive AccessMode : Type := F_OK | R_OK | W_OK | X_OK.

(** What [fileOrFolderCoerce] takes from its surroundings: [resolvePath]
    of [src/utils/resolve-path], called with a path and a flag, and
    [fs.accessSync], which returns nothing or throws. *)
Class FileSystem : Type := {
  resolvePath : string -> bool -> Completion string;
  accessSync : string -> AccessMode -> Completion unit
}.

Section Paths.

Context {fs : FileSystem}.

(** [fileOrFolderCoerce]: the path is resolved outside the [try], the
    access check runs inside it and its error is replaced. *)
Definition fileOrFolderCoerce (fileOrFolder : string) : Completion string :=
  match resolvePath fileOrFolder true with
  | Throw e => Throw e
  | Normal cleanedUpPath =>
      match accessSync cleanedUpPath X_OK with
      | Throw _ => Throw (Error ("unable to use file/folder '" ++ fileOrFolder ++ "'"))
      | Normal _ => Normal cleanedUpPath
      end
  end.

End Paths.

(** ** More surroundings for examples *)

Module Offline.

(** The handler of [Demo] with a lookup that rejects. *)
Definition database : @Database bson_driver Demo.runtime :=
  {| analyses := Demo.Analyses : @Collection Demo.runtime;
     files := Demo.Files : @Collection Demo.runtime;
     findId := fun _ (h : @Handler Demo.runtime) =>
       (Throw (Error "connection closed"), h);
     nameCollectionDocument := @nameCollectionDocument bson_driver Demo.runtime Demo.database;
     syncProject := @syncProject bson_driver Demo.runtime Demo.database;
     deleteAnalysis := @deleteAnalysis bson_driver Demo.runtime Demo.database;
     deleteFile := @deleteFile bson_driver Demo.runtime Demo.database |}.

(** A file system with one directory, [/data/project]; a relative path
    is resolved against [/data/]. *)
Definition fs : FileSystem :=
  {| resolvePath := fun path _ =>
       Normal (match path with
               | String "/" _ => path
               | _ => "/data/" ++ path
               end);
     accessSync := fun path _ =>
       if String.eqb path "/data/project" then Normal tt
       else Throw (Error "ENOENT: no such file or directory") |}.

(** No accession prefix in the environment; the text [undefined] that
    stands in for it is literal, so the engine is not consulted. *)
Definition env_unset : ProcessEnv :=
  {| ACCESSION_PREFIX := None; RegExp_test := fun _ _ => false |}.

(** [{filename: "traj.xtc"}], a file document without metadata. *)
Definition file_properties_bare : list (string * JsValue) :=
  [("filename", JsStr "traj.xtc")].

(** A store without documents. *)
Definition empty_store : @Handler Demo.runtime := [].

(** A binding of [userConfirm] that resolves to a fixed answer. *)
Definition answer (v : JsValue) : string -> @M bson_driver Demo.runtime JsValue :=
  fun _ => ret v.

End Offline.

(** * Properties *)

(** ** Strings *)

Module JsStringFacts.
Import JsString Variant.

Ltac each_ascii c :=
  destruct c as [[] [] [] [] [] [] [] []]; try reflexivity; try discriminate.

Lemma upper_char_white_space c : is_white_space (upper_char c) = is_white_space c.
Proof. each_ascii c. Qed.

Lemma upper_char_idempotent c : upper_char (upper_char c) = upper_char c.
Proof. each_ascii c. Qed.

Lemma toUpperCase_idempotent s : toUpperCase (toUpperCase s) = toUpperCase s.
Proof.
  induction s as [|c r IH]; simpl; [reflexivity|].
  now rewrite upper_char_idempotent, IH.
Qed.

Lemma trimStart_toUpperCase s : trimStart (toUpperCase s) = toUpperCase (trimStart s).
Proof.
  induction s as [|c r IH]; simpl; [reflexivity|].
  rewrite upper_char_white_space. destruct (is_white_space c); [exact IH | reflexivity].
Qed.

Lemma trimEnd_toUpperCase s : trimEnd (toUpperCase s) = toUpperCase (trimEnd s).
Proof.
  induction s as [|c r IH]; simpl; [reflexivity|].
  rewrite IH, upper_char_white_space.
  destruct (trimEnd r) as [|x y]; simpl.
  - destruct (is_white_space c); reflexivity.
  - reflexivity.
Qed.

Lemma trim_toUpperCase s : trim (toUpperCase s) = toUpperCase (trim s).
Proof. unfold trim. now rewrite trimStart_toUpperCase, trimEnd_toUpperCase. Qed.

Lemma trimStart_white s : all_chars is_white_space s = true -> trimStart s = EmptyString.
Proof.
  induction s as [|c r IH]; simpl; [reflexivity|].
  intros H. apply andb_true_iff in H as [Hc Hr]. rewrite Hc. auto.
Qed.

Lemma trimStart_app_white l s :
  all_chars is_white_space l = true -> trimStart (l ++ s) = trimStart s.
Proof.
  induction l as [|c r IH]; simpl; [reflexivity|].
  intros H. apply andb_true_iff in H as [Hc Hr]. rewrite Hc. auto.
Qed.

Lemma trimEnd_white s : all_chars is_white_space s = true -> trimEnd s = EmptyString.
Proof.
  induction s as [|c r IH]; simpl; [reflexivity|].
  intros H. apply andb_true_iff in H as [Hc Hr]. now rewrite (IH Hr), Hc.
Qed.

Lemma trimEnd_app_white s r :
  all_chars is_white_space r = true -> trimEnd (s ++ r) = trimEnd s.
Proof.
  intros Hr. induction s as [|c s' IH]; simpl.
  - now apply trimEnd_white.
  - now rewrite IH.
Qed.

Lemma trim_app_white_right s r :
  all_chars is_white_space r = true -> trim (s ++ r) = trim s.
Proof.
  intros Hr. unfold trim. induction s as [|c s' IH]; simpl.
  - now rewrite (trimStart_white _ Hr).
  - destruct (is_white_space c); [exact IH|].
    change (String c (s' ++ r)) with (String c s' ++ r).
    now apply trimEnd_app_white.
Qed.

Lemma trim_padding l s r :
  all_chars is_white_space l = true -> all_chars is_white_space r = true ->
  trim (l ++ s ++ r) = trim s.
Proof.
  intros Hl Hr. rewrite <- (trim_app_white_right s r Hr).
  unfold trim. now rewrite trimStart_app_white.
Qed.

Lemma trimEnd_idempotent s : trimEnd (trimEnd s) = trimEnd s.
Proof.
  induction s as [|c r IH]; simpl; [reflexivity|].
  destruct (trimEnd r) as [|x y] eqn:E.
  - destruct (is_white_space c) eqn:Hc; simpl; [reflexivity | now rewrite Hc].
  - simpl in *. now rewrite IH.
Qed.

Lemma trimStart_trimEnd_trimStart s : trimStart (trimEnd (trimStart s)) = trimEnd (trimStart s).
Proof.
  induction s as [|c r IH]; simpl; [reflexivity|].
  destruct (is_white_space c) eqn:Hc; [exact IH|].
  simpl. rewrite Hc. destruct (trimEnd r); simpl; now rewrite Hc.
Qed.

Lemma trim_idempotent s : trim (trim s) = trim s.
Proof.
  unfold trim. now rewrite trimStart_trimEnd_trimStart, trimEnd_idempotent.
Qed.

Lemma same_letter_upper a b : same_letter a b = true -> upper_char a = upper_char b.
Proof.
  unfold same_letter. intros H.
  apply orb_true_iff in H as [H|H]; [apply orb_true_iff in H as [H|H]|].
  - apply Ascii.eqb_eq in H. now subst.
  - apply andb_true_iff in H as [_ H]. apply Ascii.eqb_eq in H. subst b.
    now rewrite upper_char_idempotent.
  - apply andb_true_iff in H as [_ H]. apply Ascii.eqb_eq in H. subst a.
    now rewrite upper_char_idempotent.
Qed.

Lemma differ_in_case_only_upper s t :
  differ_in_case_only s t = true -> toUpperCase s = toUpperCase t.
Proof.
  revert t. induction s as [|a s' IH]; intros [|b t']; simpl; try discriminate; auto.
  intros H. apply andb_true_iff in H as [Hab Hst].
  now rewrite (same_letter_upper _ _ Hab), (IH _ Hst).
Qed.

Lemma normalize_variant s t :
  differ_in_case_or_padding s t -> toUpperCase (trim s) = toUpperCase (trim t).
Proof.
  intros (ls & rs & lt & rt & cs & ct & -> & -> & Hls & Hrs & Hlt & Hrt & Hc).
  rewrite !trim_padding by assumption.
  rewrite <- !trim_toUpperCase. now rewrite (differ_in_case_only_upper _ _ Hc).
Qed.

Lemma strip_prefix_app p s rest : strip_prefix p s = Some rest -> s = p ++ rest.
Proof.
  revert s. induction p as [|a p' IH]; intros s; simpl.
  - now intros [= ->].
  - destruct s as [|b s']; [discriminate|].
    destruct (Ascii.eqb a b) eqn:E; [|discriminate].
    apply Ascii.eqb_eq in E. subst b. intros H. now rewrite (IH _ H).
Qed.

End JsStringFacts.

(** ** The identifier coercions *)

Section ResolverFacts.
Import JsString Variant JsStringFacts.

Context {driver : MongoDriver} {env : ProcessEnv}.

Lemma accessionCoerce_normal s a :
  accessionCoerce s = Normal a ->
  a = toUpperCase (trim s) /\ accessionFormat_test a = true.
Proof.
  unfold accessionCoerce.
  destruct (accessionFormat_test (toUpperCase (trim s))) eqn:E; simpl; [|discriminate].
  intros [= <-]. now split.
Qed.

Lemma accessionFormat_shape a :
  literal_prefix accession_prefix = true ->
  accessionFormat_test a = true ->
  exists digits, a = accession_prefix ++ digits /\
                 String.length digits = 5%nat /\ all_chars is_digit digits = true.
Proof.
  unfold accessionFormat_test, literal_test. intros ->.
  destruct (strip_prefix accession_prefix a) as [digits|] eqn:E; [|discriminate].
  intros H. apply andb_true_iff in H as [Hlen Hdig].
  exists digits. repeat split; auto using strip_prefix_app.
  now apply Nat.eqb_eq.
Qed.

Lemma accessionCoerce_fixpoint s a :
  accessionCoerce s = Normal a -> accessionCoerce a = Normal a.
Proof.
  intros H. apply accessionCoerce_normal in H as [-> Hf].
  unfold accessionCoerce.
  rewrite <- trim_toUpperCase, toUpperCase_idempotent, trim_toUpperCase, trim_idempotent.
  now rewrite Hf.
Qed.

(** How [idOrAccessionCoerce] goes on a truthy string, by the outcome
    of the two coercions and the test of line 115. *)
Lemma idOrAccessionCoerce_cases s :
  truthy s = true ->
  idOrAccessionCoerce (Some s) =
    match idCoerce s with
    | Normal oid => Normal (Some (IdObject oid))
    | Throw _ =>
        match accessionCoerce s with
        | Normal a =>
            if truthy a then Normal (Some (IdAccession a))
            else Throw (Error "Invalid ID or accession")
        | Throw _ => Throw (Error "Invalid ID or accession")
        end
    end.
Proof.
  intros Hs. unfold idOrAccessionCoerce. rewrite Hs. simpl.
  destruct (idCoerce s) as [oid|e]; [reflexivity|].
  destruct (accessionCoerce s) as [a|e']; reflexivity.
Qed.

(** C9. Two inputs that differ only in the case of their letters or in
    the white space around them are coerced alike by [accessionCoerce]:
    both are rejected, or both give the same accession, which is the
    trimmed and upper-cased text. An accession it returns is coerced to
    itself. *)
Theorem accessionCoerce_normalizes s t :
  differ_in_case_or_padding s t ->
  accessionCoerce s = accessionCoerce t /\
  (forall a, accessionCoerce s = Normal a ->
             a = toUpperCase (trim s) /\ a = toUpperCase (trim t) /\
             accessionCoerce a = Normal a).
Proof.
  intros Hv. pose proof (normalize_variant _ _ Hv) as Hn. split.
  - unfold accessionCoerce. now rewrite Hn.
  - intros a Ha. pose proof (accessionCoerce_fixpoint _ _ Ha) as Hfix.
    apply accessionCoerce_normal in Ha as [-> _]. auto.
Qed.


(** C6, as the code has it. On a string that is not empty
    [idOrAccessionCoerce] takes the object id when [ObjectId] accepts
    the string, whatever [accessionCoerce] would say; it takes the
    accession only when [ObjectId] throws, and then returns it unless it
    is the empty string; and when both throw it throws an error whose
    message is the constant text [Invalid ID or accession], the same for
    every input. *)
Theorem idOrAccessionCoerce_order s :
  s <> "" ->
  (forall oid, ObjectId s = Normal oid ->
               idOrAccessionCoerce (Some s) = Normal (Some (IdObject oid))) /\
  (forall e0 a, ObjectId s = Throw e0 -> accessionCoerce s = Normal a -> a <> "" ->
                idOrAccessionCoerce (Some s) = Normal (Some (IdAccession a))) /\
  (forall e0, ObjectId s = Throw e0 -> accessionCoerce s = Normal "" ->
              idOrAccessionCoerce (Some s) = Throw (Error "Invalid ID or accession")) /\
  (forall e0 e, ObjectId s = Throw e0 -> accessionCoerce s = Throw e ->
                idOrAccessionCoerce (Some s) = Throw (Error "Invalid ID or accession")).
Proof.
  intros Hne.
  assert (Hs : truthy s = true) by (destruct s; [contradiction | reflexivity]).
  rewrite (idOrAccessionCoerce_cases _ Hs). unfold idCoerce.
  repeat split.
  - intros oid ->. reflexivity.
  - intros e0 a -> -> Ha. destruct a; [contradiction | reflexivity].
  - intros e0 -> ->. reflexivity.
  - intros e0 e -> ->. reflexivity.
Qed.

(** C2, as the code has it. The [cleanup] command (with its aliases,
    [delete] among them) declares [idCoerce] for its identifier: the
    argument is accepted exactly when [ObjectId] accepts it, and the
    command then receives that object id; an accession that [ObjectId]
    does not accept is rejected with the error of [ObjectId], and no
    accession is ever handed to the command. The coercion that takes
    accessions is the one of [unpublish] and of [load --append]. *)
Theorem cleanup_takes_raw_ids_only :
  exists coerce,
    id_coerce_of cmd_cleanup = Some coerce /\
    (forall raw oid, ObjectId raw = Normal oid -> coerce raw = Normal (Some (IdObject oid))) /\
    (forall raw e, ObjectId raw = Throw e -> coerce raw = Throw e) /\
    (forall raw a, coerce raw <> Normal (Some (IdAccession a))) /\
    id_coerce_of cmd_unpublish = Some (fun raw => idOrAccessionCoerce (Some raw)) /\
    id_coerce_of cmd_load = Some (fun raw => idOrAccessionCoerce (Some raw)).
Proof.
  exists idCoerce_option. unfold idCoerce_option, idCoerce. repeat split.
  - intros raw oid ->. reflexivity.
  - intros raw e ->. reflexivity.
  - intros raw a. destruct (ObjectId raw); discriminate.
Qed.

End ResolverFacts.

(** C9 at [" mcns00042"] and ["MCNS00042  "]. *)
Lemma accessionCoerce_normalizes_witness :
  Variant.differ_in_case_or_padding " mcns00042" "MCNS00042  " /\
  @accessionCoerce env_MCNS " mcns00042" = Normal "MCNS00042" /\
  @accessionCoerce env_MCNS "MCNS00042  " = Normal "MCNS00042".
Proof.
  assert (Hv : Variant.differ_in_case_or_padding " mcns00042" "MCNS00042  ").
  { exists " ", "", "", "  ", "mcns00042", "MCNS00042". repeat split; reflexivity. }
  split; [exact Hv|].
  destruct (@accessionCoerce_normalizes env_MCNS _ _ Hv) as [Heq _].
  split; [reflexivity | rewrite <- Heq; reflexivity].
Defined.


(** C6, as the code has it, at ["MCNS00042"]. *)
Lemma idOrAccessionCoerce_order_witness :
  "MCNS00042" <> "" /\
  @idOrAccessionCoerce bson_driver env_MCNS (Some "MCNS00042")
  = Normal (Some (IdAccession "MCNS00042")).
Proof.
  assert (Hne : "MCNS00042" <> "") by discriminate.
  split; [exact Hne|].
  destruct (@idOrAccessionCoerce_order bson_driver env_MCNS _ Hne) as (_ & Hacc & _).
  eapply Hacc; [reflexivity | reflexivity | exact Hne].
Defined.

(** C6 as stated fails at ["foo"]: both coercions throw, and the message
    of the error does not contain the input. *)
Lemma idOrAccessionCoerce_error_does_not_name_input :
  @idCoerce bson_driver "foo"
  = Throw (TypeError
      "Argument passed in must be a single String of 12 bytes or a string of 24 hex characters") /\
  @accessionCoerce env_MCNS "foo" = Throw (Error "Not a valid accession") /\
  @idOrAccessionCoerce bson_driver env_MCNS (Some "foo")
  = Throw (Error "Invalid ID or accession") /\
  ~ (exists message,
        @idOrAccessionCoerce bson_driver env_MCNS (Some "foo") = Throw (Error message) /\
        JsString.includes message "foo" = true).
Proof.
  assert (E : @idOrAccessionCoerce bson_driver env_MCNS (Some "foo")
              = Throw (Error "Invalid ID or accession")) by reflexivity.
  repeat split; try exact E.
  intros (message & H & Hin). rewrite E in H.
  assert (Hm : message = "Invalid ID or accession") by congruence.
  subst message. vm_compute in Hin. discriminate Hin.
Defined.

(** C2 as stated fails at ["MCNS00042"]: the string is an accession, and
    the coercion of [cleanup] throws on it. *)
Lemma cleanup_rejects_accession :
  @accessionCoerce env_MCNS "MCNS00042" = Normal "MCNS00042" /\
  @idOrAccessionCoerce bson_driver env_MCNS (Some "MCNS00042")
  = Normal (Some (IdAccession "MCNS00042")) /\
  (exists coerce,
      @id_coerce_of bson_driver env_MCNS cmd_cleanup = Some coerce /\
      coerce "MCNS00042"
      = Throw (TypeError
          "Argument passed in must be a single String of 12 bytes or a string of 24 hex characters")) /\
  ~ (forall raw a,
        @accessionCoerce env_MCNS raw = Normal a ->
        exists coerce id,
          @id_coerce_of bson_driver env_MCNS cmd_cleanup = Some coerce /\
          coerce raw = Normal (Some id)).
Proof.
  repeat split.
  - eexists. split; reflexivity.
  - intros H. destruct (H "MCNS00042" "MCNS00042" eq_refl) as (coerce & id & Hc & Hr).
    injection Hc as <-. discriminate.
Defined.

(** ** The delete command *)

Section DeleteFacts.

Context {driver : MongoDriver} {runtime : Runtime}.

Lemma after_after (w : World) h1 e1 h2 e2 :
  after (after w h1 e1) h2 e2 = after w h2 (e1 ++ e2).
Proof. unfold after. simpl. now rewrite app_assoc. Qed.

Lemma prompts_app (t u : list Event) : prompts (t ++ u) = (prompts t ++ prompts u)%list.
Proof. apply filter_app. Qed.

Lemma sync_and_delete_calls_app (t u : list Event) :
  sync_and_delete_calls (t ++ u) = (sync_and_delete_calls t ++ sync_and_delete_calls u)%list.
Proof. apply filter_app. Qed.

Ltac run :=
  unfold deleteFunction, deleteFunction_in, confirmation_step, deletionProtocol,
    console_log, console_error, bind, lift, call, emit, ret, throw, after, title in *;
  simpl in *.

(** Up to the confirmation: the title is logged, the target looked up,
    and the rest runs in the world reached then. *)
Lemma deleteFunction_found uc args database w target h0 :
  findId database (id args) (handler w) = (Normal (Some target), h0) ->
  deleteFunction_in uc args database w =
    let documentName := nameCollectionDocument database (collection target) in
    bind (confirmation_step uc (confirm args) documentName (id args))
      (fun proceed : bool =>
         if proceed then deletionProtocol database target documentName
         else console_log "Data deletion has been aborted")
      (after w h0 [ConsoleLog (title args); FindId (id args)]).
Proof.
  intros Hfind. run. rewrite Hfind. simpl. now rewrite <- app_assoc.
Qed.

Lemma deleteFunction_confirmed uc args database w target h0 :
  confirm args = true ->
  findId database (id args) (handler w) = (Normal (Some target), h0) ->
  deleteFunction_in uc args database w =
    deletionProtocol database target (nameCollectionDocument database (collection target))
      (after w h0 [ConsoleLog (title args); FindId (id args)]).
Proof.
  intros Hc Hfind. rewrite (deleteFunction_found uc _ _ _ _ _ Hfind).
  unfold confirmation_step, bind, ret. now rewrite Hc.
Qed.

(** The protocol on a target of the analyses collection. *)
Lemma deletionProtocol_analysis database target documentName w properties :
  collection target = analyses database ->
  document target = JsObject properties ->
  let project := own_property properties "project" in
  let name := own_property properties "name" in
  let mdIndex := own_property properties "md" in
  deletionProtocol database target documentName w =
    match syncProject database project (handler w) with
    | (Normal _, h) =>
        (fst (deleteAnalysis database name mdIndex h),
         after w (snd (deleteAnalysis database name mdIndex h))
           [SyncProject project; DeleteAnalysis name mdIndex])
    | (Throw e, h) => (Throw e, after w h [SyncProject project])
    end.
Proof.
  intros Hc Hd. run. rewrite Hd. simpl.
  destruct (Collection_eq_dec (collection target) (analyses database)) as [_|Hn];
    [|contradiction].
  destruct (syncProject database _ (handler w)) as [[v|e] h]; [|reflexivity].
  simpl. destruct (deleteAnalysis database _ _ h) as [r h']. simpl.
  now rewrite <- app_assoc.
Qed.

(** The protocol on a target of the files collection. *)
Lemma deletionProtocol_file database target documentName w properties metadata :
  collection target = files database ->
  files database <> analyses database ->
  document target = JsObject properties ->
  own_property properties "metadata" = JsObject metadata ->
  let project := own_property metadata "project" in
  let filename := own_property properties "filename" in
  let mdIndex := own_property metadata "md" in
  deletionProtocol database target documentName w =
    match syncProject database project (handler w) with
    | (Normal _, h) =>
        (fst (deleteFile database filename mdIndex h),
         after w (snd (deleteFile database filename mdIndex h))
           [SyncProject project; DeleteFile filename mdIndex])
    | (Throw e, h) => (Throw e, after w h [SyncProject project])
    end.
Proof.
  intros Hc Hne Hd Hm. run. rewrite Hd. simpl. rewrite Hm. simpl.
  destruct (Collection_eq_dec (collection target) (analyses database)) as [E|_];
    [congruence|].
  destruct (Collection_eq_dec (collection target) (files database)) as [_|Hn];
    [|contradiction].
  destruct (syncProject database _ (handler w)) as [[v|e] h]; [|reflexivity].
  simpl. destruct (deleteFile database _ _ h) as [r h']. simpl.
  now rewrite <- app_assoc.
Qed.

(** The protocol on a target of any other collection. *)
Lemma deletionProtocol_other database target documentName w :
  collection target <> analyses database ->
  collection target <> files database ->
  deletionProtocol database target documentName w =
    (Throw (Error ("Deletion of " ++ documentName ++ " is not yet supported")), w).
Proof.
  intros Ha Hf. run.
  destruct (Collection_eq_dec (collection target) (analyses database)) as [Hy|_];
    [contradiction|].
  destruct (Collection_eq_dec (collection target) (files database)) as [Hy|_];
    [contradiction|].
  reflexivity.
Qed.

(** The protocol reads no input, asks nothing and leaves only calls of
    [syncProject], [deleteAnalysis] and [deleteFile] in the trace. *)
Lemma deletionProtocol_effects database target documentName w :
  exists h events,
    snd (deletionProtocol database target documentName w) = after w h events /\
    prompts events = [] /\
    forall input,
      deletionProtocol database target documentName (with_stdin input w)
      = (fst (deletionProtocol database target documentName w),
         with_stdin input (snd (deletionProtocol database target documentName w))).
Proof.
  run.
  destruct (Collection_eq_dec (collection target) (analyses database)) as [Ha|Ha];
    [|destruct (Collection_eq_dec (collection target) (files database)) as [Hf|Hf]].
  - destruct (getProp (document target) "project") as [project|e]; simpl.
    2:{ exists (handler w), []. rewrite app_nil_r. destruct w; auto. }
    destruct (syncProject database project (handler w)) as [[v|e] h]; simpl.
    2:{ exists h, [SyncProject project]. auto. }
    destruct (getProp (document target) "name") as [name|e]; simpl.
    2:{ exists h, [SyncProject project]. auto. }
    destruct (getProp (document target) "md") as [mdIndex|e]; simpl.
    2:{ exists h, [SyncProject project]. auto. }
    destruct (deleteAnalysis database name mdIndex h) as [r h']; simpl.
    exists h', [SyncProject project; DeleteAnalysis name mdIndex].
    rewrite <- app_assoc. auto.
  - destruct (getProp (document target) "metadata") as [metadata|e]; simpl.
    2:{ exists (handler w), []. rewrite app_nil_r. destruct w; auto. }
    destruct (getProp metadata "project") as [project|e]; simpl.
    2:{ exists (handler w), []. rewrite app_nil_r. destruct w; auto. }
    destruct (syncProject database project (handler w)) as [[v|e] h]; simpl.
    2:{ exists h, [SyncProject project]. auto. }
    destruct (getProp (document target) "filename") as [filename|e]; simpl.
    2:{ exists h, [SyncProject project]. auto. }
    destruct (getProp metadata "md") as [mdIndex|e]; simpl.
    2:{ exists h, [SyncProject project]. auto. }
    destruct (deleteFile database filename mdIndex h) as [r h']; simpl.
    exists h', [SyncProject project; DeleteFile filename mdIndex].
    rewrite <- app_assoc. auto.
  - exists (handler w), []. rewrite app_nil_r. destruct w; auto.
Qed.

(** C5. On a target of the analyses collection the protocol calls
    [syncProject] with [document.project] and then, once that call has
    resolved, [deleteAnalysis] with [document.name] and [document.md];
    a rejected [syncProject] is passed on and nothing is deleted. The
    same holds of the whole command when confirmation is skipped. *)
Theorem analysis_sync_then_delete database target properties :
  collection target = analyses database ->
  document target = JsObject properties ->
  let project := own_property properties "project" in
  let name := own_property properties "name" in
  let mdIndex := own_property properties "md" in
  let outcome (w : World) (before : list Event) (h0 : Handler) :=
    match syncProject database project h0 with
    | (Normal _, h) =>
        (fst (deleteAnalysis database name mdIndex h),
         after w (snd (deleteAnalysis database name mdIndex h))
           (before ++ [SyncProject project; DeleteAnalysis name mdIndex]))
    | (Throw e, h) => (Throw e, after w h (before ++ [SyncProject project]))
    end in
  (forall documentName w,
      deletionProtocol database target documentName w = outcome w [] (handler w)) /\
  (forall args w h0,
      confirm args = true ->
      findId database (id args) (handler w) = (Normal (Some target), h0) ->
      deleteFunction args database w
      = outcome w [ConsoleLog (title args); FindId (id args)] h0).
Proof.
  intros Hc Hd project name mdIndex outcome. split.
  - intros documentName w.
    rewrite (deletionProtocol_analysis _ _ documentName w _ Hc Hd). reflexivity.
  - intros args w h0 Hconfirm Hfind. unfold deleteFunction.
    rewrite (deleteFunction_confirmed None _ _ _ _ _ Hconfirm Hfind).
    rewrite (deletionProtocol_analysis _ _ _ _ _ Hc Hd). unfold outcome. simpl.
    fold project name mdIndex.
    destruct (syncProject database project h0) as [[v|e] h];
      now rewrite after_after.
Qed.

(** C1, as the code has it. On a target of the files collection the
    protocol calls [syncProject] with [document.metadata.project] and
    then, once that call has resolved, [deleteFile] with
    [document.filename], a property of the document itself, and
    [document.metadata.md]. The same holds of the whole command when
    confirmation is skipped. *)
Theorem file_sync_then_delete database target properties metadata :
  collection target = files database ->
  files database <> analyses database ->
  document target = JsObject properties ->
  own_property properties "metadata" = JsObject metadata ->
  let project := own_property metadata "project" in
  let filename := own_property properties "filename" in
  let mdIndex := own_property metadata "md" in
  let outcome (w : World) (before : list Event) (h0 : Handler) :=
    match syncProject database project h0 with
    | (Normal _, h) =>
        (fst (deleteFile database filename mdIndex h),
         after w (snd (deleteFile database filename mdIndex h))
           (before ++ [SyncProject project; DeleteFile filename mdIndex]))
    | (Throw e, h) => (Throw e, after w h (before ++ [SyncProject project]))
    end in
  (forall documentName w,
      deletionProtocol database target documentName w = outcome w [] (handler w)) /\
  (forall args w h0,
      confirm args = true ->
      findId database (id args) (handler w) = (Normal (Some target), h0) ->
      deleteFunction args database w
      = outcome w [ConsoleLog (title args); FindId (id args)] h0).
Proof.
  intros Hc Hne Hd Hm project filename mdIndex outcome. split.
  - intros documentName w.
    rewrite (deletionProtocol_file _ _ documentName w _ _ Hc Hne Hd Hm). reflexivity.
  - intros args w h0 Hconfirm Hfind. unfold deleteFunction.
    rewrite (deleteFunction_confirmed None _ _ _ _ _ Hconfirm Hfind).
    rewrite (deletionProtocol_file _ _ _ _ _ _ Hc Hne Hd Hm). unfold outcome. simpl.
    fold project filename mdIndex.
    destruct (syncProject database project h0) as [[v|e] h];
      now rewrite after_after.
Qed.

(** C4. On a target whose collection is neither the analyses nor the
    files collection the protocol throws an error whose message holds
    the document name it was given, and calls nothing. In the command
    that name is [nameCollectionDocument] of the target's collection,
    and with confirmation skipped the command ends with this error,
    having called neither [syncProject], [deleteAnalysis] nor
    [deleteFile]. *)
Theorem other_collection_not_supported database target :
  collection target <> analyses database ->
  collection target <> files database ->
  (forall documentName w,
      deletionProtocol database target documentName w
      = (Throw (Error ("Deletion of " ++ documentName ++ " is not yet supported")), w)) /\
  (forall args w h0,
      confirm args = true ->
      findId database (id args) (handler w) = (Normal (Some target), h0) ->
      deleteFunction args database w
      = (Throw (Error ("Deletion of "
                       ++ nameCollectionDocument database (collection target)
                       ++ " is not yet supported")),
         after w h0 [ConsoleLog (title args); FindId (id args)]) /\
      sync_and_delete_calls (trace (snd (deleteFunction args database w)))
      = sync_and_delete_calls (trace w)).
Proof.
  intros Ha Hf. split.
  - intros documentName w. now apply deletionProtocol_other.
  - intros args w h0 Hconfirm Hfind. unfold deleteFunction.
    rewrite (deleteFunction_confirmed None _ _ _ _ _ Hconfirm Hfind).
    rewrite (deletionProtocol_other _ _ _ _ Ha Hf). split; [reflexivity|].
    simpl. rewrite sync_and_delete_calls_app. simpl. apply app_nil_r.
Qed.

(** C3. When a target is found and [confirm] is not set, the command
    stops on the reference to [userConfirm], which nothing binds: it
    throws a [ReferenceError] after the title line and the lookup, with
    no prompt written, nothing read from standard input, and no call of
    [syncProject], [deleteAnalysis] or [deleteFile]. *)
Theorem unconfirmed_deletion_throws_ReferenceError args database w target h0 :
  confirm args = false ->
  findId database (id args) (handler w) = (Normal (Some target), h0) ->
  deleteFunction args database w
  = (Throw (ReferenceError "userConfirm is not defined"),
     after w h0 [ConsoleLog (title args); FindId (id args)]) /\
  prompts (trace (snd (deleteFunction args database w))) = prompts (trace w) /\
  sync_and_delete_calls (trace (snd (deleteFunction args database w)))
  = sync_and_delete_calls (trace w).
Proof.
  intros Hconfirm Hfind. unfold deleteFunction.
  rewrite (deleteFunction_found None _ _ _ _ _ Hfind).
  unfold confirmation_step, bind, throw. rewrite Hconfirm. simpl.
  rewrite prompts_app, sync_and_delete_calls_app. simpl.
  now rewrite !app_nil_r.
Qed.

(** Were [userConfirm] bound to the confirmation prompt, any response
    other than [y] and [Y] would end the command with the abort
    message and without a call of the handler after the lookup. *)
Lemma decline_aborts_when_bound args database w target h0 :
  confirm args = false ->
  findId database (id args) (handler w) = (Normal (Some target), h0) ->
  hd "" (stdin w) <> "y" -> hd "" (stdin w) <> "Y" ->
  deleteFunction_in (Some userConfirm_prompt) args database w
  = (Normal JsUndefined,
     {| handler := h0;
        stdin := tl (stdin w);
        trace := trace w
          ++ [ConsoleLog (title args); FindId (id args);
              Prompt ("Confirm deletion of of "
                      ++ nameCollectionDocument database (collection target)
                      ++ " with id " ++ id_toString (id args) ++ " [y/*]");
              ConsoleLog "Data deletion has been aborted"] |}).
Proof.
  intros Hconfirm Hfind Hy HY.
  rewrite (deleteFunction_found _ _ _ _ _ _ Hfind).
  unfold confirmation_step, userConfirm_prompt, bind, ret. rewrite Hconfirm. simpl.
  apply String.eqb_neq in Hy, HY. rewrite Hy, HY. simpl.
  unfold console_log, bind, emit, ret. simpl.
  now rewrite <- !app_assoc.
Qed.

(** C8. With [confirm] set the command does not look at [userConfirm]:
    whatever is bound to it, the command behaves as the module's own
    function; from a found target it goes straight to the protocol;
    it writes no prompt, reads nothing from standard input, and does
    the same whatever lines are waiting there. *)
Theorem confirm_flag_skips_prompt uc args database w :
  confirm args = true ->
  deleteFunction_in uc args database w = deleteFunction args database w /\
  (forall target h0,
      findId database (id args) (handler w) = (Normal (Some target), h0) ->
      deleteFunction_in uc args database w
      = deletionProtocol database target
          (nameCollectionDocument database (collection target))
          (after w h0 [ConsoleLog (title args); FindId (id args)])) /\
  prompts (trace (snd (deleteFunction_in uc args database w))) = prompts (trace w) /\
  stdin (snd (deleteFunction_in uc args database w)) = stdin w /\
  (forall input,
      deleteFunction_in uc args database (with_stdin input w)
      = (fst (deleteFunction_in uc args database w),
         with_stdin input (snd (deleteFunction_in uc args database w)))).
Proof.
  intros Hconfirm.
  destruct (findId database (id args) (handler w)) as [[[target|]|e] h0] eqn:Hfind.
  - (* found *)
    pose proof (deleteFunction_confirmed uc _ _ _ _ _ Hconfirm Hfind) as Hrun.
    pose proof (deleteFunction_confirmed None _ _ _ _ _ Hconfirm Hfind) as Hown.
    unfold deleteFunction. rewrite Hrun, Hown.
    set (w1 := after w h0 [ConsoleLog (title args); FindId (id args)]).
    set (name := nameCollectionDocument database (collection target)).
    destruct (deletionProtocol_effects database target name w1)
      as (h & events & Hsnd & Hprompts & Hinput).
    repeat split.
    + intros target' h0' [= <- <-]. reflexivity.
    + rewrite Hsnd. unfold w1, after. cbn [trace].
      rewrite !prompts_app, Hprompts. unfold prompts. simpl. now rewrite !app_nil_r.
    + rewrite Hsnd. reflexivity.
    + intros input.
      assert (Hfind' : findId database (id args) (handler (with_stdin input w))
                       = (Normal (Some target), h0)) by exact Hfind.
      rewrite (deleteFunction_confirmed uc _ _ _ _ _ Hconfirm Hfind').
      exact (Hinput input).
  - (* nothing found *)
    unfold deleteFunction. run. rewrite Hfind. simpl.
    repeat split; try discriminate.
    rewrite !prompts_app. simpl. now rewrite !app_nil_r.
  - (* the lookup rejects *)
    unfold deleteFunction. run. rewrite Hfind. simpl.
    repeat split; try discriminate.
    rewrite !prompts_app. simpl. now rewrite !app_nil_r.
Qed.

End DeleteFacts.

(** C5 at the document [{name: "md.rmsd", md: 1, project: "P1"}]. *)
Lemma analysis_sync_then_delete_witness :
  let store := Demo.store_of Demo.Analyses Demo.analysis_properties in
  deleteFunction (Demo.args true) Demo.database (Demo.world store [])
  = (Normal JsUndefined,
     {| handler := store;
        stdin := [];
        trace := [ConsoleLog "== Deletion of '303132333435363738396162'";
                  FindId Demo.oid;
                  SyncProject (JsStr "P1");
                  DeleteAnalysis (JsStr "md.rmsd") (JsNumber 1)] |}).
Proof.
  intros store.
  destruct (@analysis_sync_then_delete bson_driver Demo.runtime Demo.database
              (Demo.target_of Demo.Analyses Demo.analysis_properties)
              Demo.analysis_properties eq_refl eq_refl) as [_ H].
  rewrite (H (Demo.args true) (Demo.world store []) store eq_refl eq_refl).
  reflexivity.
Defined.

(** C1, as the code has it, at the document
    [{filename: "traj.xtc", metadata: {md: 2, project: "P2"}}]. *)
Lemma file_sync_then_delete_witness :
  let store := Demo.store_of Demo.Files Demo.file_properties in
  deleteFunction (Demo.args true) Demo.database (Demo.world store [])
  = (Normal JsUndefined,
     {| handler := store;
        stdin := [];
        trace := [ConsoleLog "== Deletion of '303132333435363738396162'";
                  FindId Demo.oid;
                  SyncProject (JsStr "P2");
                  DeleteFile (JsStr "traj.xtc") (JsNumber 2)] |}).
Proof.
  intros store.
  assert (Hne : @files bson_driver Demo.runtime Demo.database
                <> @analyses bson_driver Demo.runtime Demo.database) by discriminate.
  destruct (@file_sync_then_delete bson_driver Demo.runtime Demo.database
              (Demo.target_of Demo.Files Demo.file_properties)
              Demo.file_properties Demo.file_metadata eq_refl Hne eq_refl eq_refl)
    as [_ H].
  rewrite (H (Demo.args true) (Demo.world store []) store eq_refl eq_refl).
  reflexivity.
Defined.

(** C1 as stated fails at the document whose [metadata] is
    [{filename: "traj.xtc", md: 2, project: "P2"}]: the file name is read
    from the document, not from its metadata, and [deleteFile] is called
    with [undefined]. *)
Lemma file_name_is_not_read_from_metadata :
  sync_and_delete_calls
    (trace (snd (deleteFunction (Demo.args true) Demo.database
                   (Demo.world (Demo.store_of Demo.Files Demo.file_properties_nested) []))))
  = [SyncProject (JsStr "P2"); DeleteFile JsUndefined (JsNumber 2)] /\
  sync_and_delete_calls
    (trace (snd (deleteFunction (Demo.args true) Demo.database
                   (Demo.world (Demo.store_of Demo.Files Demo.file_properties_nested) []))))
  <> [SyncProject (JsStr "P2"); DeleteFile (JsStr "traj.xtc") (JsNumber 2)].
Proof.
  assert (E : sync_and_delete_calls
                (trace (snd (deleteFunction (Demo.args true) Demo.database
                   (Demo.world (Demo.store_of Demo.Files Demo.file_properties_nested) []))))
              = [SyncProject (JsStr "P2"); DeleteFile JsUndefined (JsNumber 2)])
    by reflexivity.
  split; [exact E|]. rewrite E. discriminate.
Defined.

(** C4 at a document of the projects collection. *)
Lemma other_collection_not_supported_witness :
  let store := Demo.store_of Demo.Projects Demo.project_properties in
  deleteFunction (Demo.args true) Demo.database (Demo.world store [])
  = (Throw (Error "Deletion of project is not yet supported"),
     {| handler := store;
        stdin := [];
        trace := [ConsoleLog "== Deletion of '303132333435363738396162'";
                  FindId Demo.oid] |}).
Proof.
  intros store.
  assert (Ha : @collection Demo.runtime (Demo.target_of Demo.Projects Demo.project_properties)
               <> @analyses bson_driver Demo.runtime Demo.database) by discriminate.
  assert (Hf : @collection Demo.runtime (Demo.target_of Demo.Projects Demo.project_properties)
               <> @files bson_driver Demo.runtime Demo.database) by discriminate.
  destruct (@other_collection_not_supported bson_driver Demo.runtime Demo.database
              _ Ha Hf) as [_ H].
  destruct (H (Demo.args true) (Demo.world store []) store eq_refl eq_refl) as [Hrun _].
  rewrite Hrun. reflexivity.
Defined.

(** C3 at a document of the analyses collection, with [y] waiting on
    standard input. *)
Lemma unconfirmed_deletion_throws_ReferenceError_witness :
  let store := Demo.store_of Demo.Analyses Demo.analysis_properties in
  deleteFunction (Demo.args false) Demo.database (Demo.world store ["y"])
  = (Throw (ReferenceError "userConfirm is not defined"),
     {| handler := store;
        stdin := ["y"];
        trace := [ConsoleLog "== Deletion of '303132333435363738396162'";
                  FindId Demo.oid] |}).
Proof.
  intros store.
  destruct (@unconfirmed_deletion_throws_ReferenceError bson_driver Demo.runtime
              (Demo.args false) Demo.database (Demo.world store ["y"])
              (Demo.target_of Demo.Analyses Demo.analysis_properties) store
              eq_refl eq_refl) as [Hrun _].
  rewrite Hrun. reflexivity.
Defined.

(** C7 on the code: the target is found, [confirm] is not set and the
    operator would answer [n]. The command throws on [userConfirm]
    instead of ending with the abort message: the answer is left on
    standard input and nothing is logged after the title line. *)
Theorem declined_deletion_throws_instead_of_aborting :
  let store := Demo.store_of Demo.Analyses Demo.analysis_properties in
  deleteFunction (Demo.args false) Demo.database (Demo.world store ["n"])
  = (Throw (ReferenceError "userConfirm is not defined"),
     {| handler := store;
        stdin := ["n"];
        trace := [ConsoleLog "== Deletion of '303132333435363738396162'";
                  FindId Demo.oid] |}) /\
  ~ In (ConsoleLog "Data deletion has been aborted")
       (trace (snd (deleteFunction (Demo.args false) Demo.database
                      (Demo.world store ["n"])))).
Proof.
  intros store. split; [reflexivity|].
  simpl. intros [H|[H|[]]]; discriminate H.
Qed.

(** C8 at a document of the files collection, with the confirmation
    prompt bound to [userConfirm] and [n] waiting on standard input. *)
Lemma confirm_flag_skips_prompt_witness :
  let store := Demo.store_of Demo.Files Demo.file_properties in
  deleteFunction_in (Some userConfirm_prompt) (Demo.args true) Demo.database
    (Demo.world store ["n"])
  = (Normal JsUndefined,
     {| handler := store;
        stdin := ["n"];
        trace := [ConsoleLog "== Deletion of '303132333435363738396162'";
                  FindId Demo.oid;
                  SyncProject (JsStr "P2");
                  DeleteFile (JsStr "traj.xtc") (JsNumber 2)] |}).
Proof.
  intros store.
  destruct (@confirm_flag_skips_prompt bson_driver Demo.runtime (Some userConfirm_prompt)
              (Demo.args true) Demo.database (Demo.world store ["n"]) eq_refl)
    as [Hsame _].
  rewrite Hsame. reflexivity.
Defined.

(** C2, as the code has it, at a 12 byte id and at an accession. *)
Lemma cleanup_takes_raw_ids_only_witness :
  exists coerce,
    @id_coerce_of bson_driver env_MCNS cmd_cleanup = Some coerce /\
    coerce "0123456789ab" = Normal (Some Demo.oid) /\
    coerce "MCNS00042"
    = Throw (TypeError
        "Argument passed in must be a single String of 12 bytes or a string of 24 hex characters").
Proof.
  destruct (@cleanup_takes_raw_ids_only bson_driver env_MCNS)
    as (coerce & Hc & Hok & Hno & _).
  exists coerce. split; [exact Hc|]. split.
  - apply Hok. reflexivity.
  - apply Hno. reflexivity.
Defined.

(** * Further properties *)

(** ** Strings *)

Module JsStringMore.
Import JsString JsStringFacts.

Lemma upper_char_not_lower c : is_lower (upper_char c) = false.
Proof. each_ascii c. Qed.

Lemma toUpperCase_no_lower s :
  all_chars (fun c => negb (is_lower c)) (toUpperCase s) = true.
Proof.
  induction s as [|c r IH]; simpl; [reflexivity|].
  now rewrite upper_char_not_lower, IH.
Qed.

Lemma strip_prefix_all_chars q p s rest :
  strip_prefix p s = Some rest -> all_chars q s = true -> all_chars q p = true.
Proof.
  revert s. induction p as [|a p' IH]; intros s; simpl; [reflexivity|].
  destruct s as [|b s']; [discriminate|].
  destruct (Ascii.eqb a b) eqn:E; [|discriminate].
  apply Ascii.eqb_eq in E. subst b. simpl. intros Hs Hq.
  apply andb_true_iff in Hq as [Ha Hs']. rewrite Ha. simpl. eauto.
Qed.

Lemma strip_prefix_here p rest : strip_prefix p (p ++ rest) = Some rest.
Proof.
  induction p as [|a p' IH]; simpl; [reflexivity|].
  now rewrite Ascii.eqb_refl.
Qed.

Lemma includes_step s sub :
  includes s sub =
    match strip_prefix sub s with
    | Some _ => true
    | None => match s with
              | EmptyString => false
              | String _ r => includes r sub
              end
    end.
Proof. destruct s; reflexivity. Qed.

Lemma includes_after a s sub : includes s sub = true -> includes (a ++ s) sub = true.
Proof.
  intros H. induction a as [|c a' IH]; simpl; [exact H|].
  destruct (strip_prefix sub (String c (a' ++ s))); [reflexivity | exact IH].
Qed.

Lemma includes_between a s b : includes (a ++ s ++ b) s = true.
Proof.
  apply includes_after. rewrite includes_step. now rewrite strip_prefix_here.
Qed.

Lemma trim_white s : all_chars is_white_space s = true -> trim s = EmptyString.
Proof. intros H. unfold trim. now rewrite (trimStart_white _ H). Qed.

End JsStringMore.

(** ** More on the identifier coercions *)

Section ResolverMore.
Import JsString Variant JsStringFacts JsStringMore.

Context {driver : MongoDriver} {env : ProcessEnv}.

Lemma accessionFormat_accepts digits :
  literal_prefix accession_prefix = true ->
  String.length digits = 5%nat -> all_chars is_digit digits = true ->
  accessionFormat_test (accession_prefix ++ digits) = true.
Proof.
  intros Hlit Hlen Hdig. unfold accessionFormat_test, literal_test.
  now rewrite Hlit, strip_prefix_here, Hlen, Hdig.
Qed.

(** With an accession prefix made of letters and digits,
    [accessionCoerce] accepts an ASCII input exactly when its trimmed,
    upper-cased text is the prefix followed by five digits, and then
    returns that text; every other input is rejected with
    [Not a valid accession]. *)
Theorem accessionCoerce_accepts_exactly s :
  literal_prefix accession_prefix = true ->
  all_chars is_seven_bit s = true ->
  (forall a,
      accessionCoerce s = Normal a <->
      a = toUpperCase (trim s) /\
      exists digits, a = accession_prefix ++ digits /\
                     String.length digits = 5%nat /\ all_chars is_digit digits = true) /\
  (forall e, accessionCoerce s = Throw e -> e = Error "Not a valid accession").
Proof.
  intros Hlit _. split.
  - intros a. split.
    + intros H. apply accessionCoerce_normal in H as [Ha Hf].
      split; [exact Ha | now apply accessionFormat_shape].
    + intros [Ha (digits & Hd & Hlen & Hdig)].
      unfold accessionCoerce. rewrite <- Ha, Hd.
      now rewrite (accessionFormat_accepts _ Hlit Hlen Hdig).
  - intros e. unfold accessionCoerce.
    destruct (accessionFormat_test (toUpperCase (trim s))); simpl; [discriminate|].
    now intros [= <-].
Qed.

(** When the accession prefix is made of letters and digits and holds a
    lower-case letter, as it does when the environment variable is not
    set and the pattern is built from the text [undefined],
    [accessionCoerce] rejects every input: the text it tests has been
    upper-cased. *)
Theorem accessionCoerce_lower_case_prefix_rejects_all :
  literal_prefix accession_prefix = true ->
  all_chars (fun c => negb (is_lower c)) accession_prefix = false ->
  forall s, accessionCoerce s = Throw (Error "Not a valid accession").
Proof.
  intros Hlit Hp s. unfold accessionCoerce, accessionFormat_test, literal_test.
  rewrite Hlit.
  destruct (strip_prefix accession_prefix (toUpperCase (trim s))) as [rest|] eqn:E;
    [|reflexivity].
  apply (strip_prefix_all_chars (fun c => negb (is_lower c))) in E.
  - rewrite E in Hp. discriminate.
  - apply toUpperCase_no_lower.
Qed.

(** The only error [idOrAccessionCoerce] throws is the one with the
    message [Invalid ID or accession]: what [ObjectId] and
    [accessionCoerce] throw never leaves it. A [coerce: idCoerce]
    option, in contrast, throws what [ObjectId] throws. *)
Theorem idOrAccessionCoerce_only_error :
  (forall input e,
      idOrAccessionCoerce input = Throw e -> e = Error "Invalid ID or accession") /\
  (forall raw e, idCoerce_option raw = Throw e <-> ObjectId raw = Throw e).
Proof.
  split.
  - intros [s|] e; [|discriminate].
    destruct (truthy s) eqn:Hs.
    + rewrite (idOrAccessionCoerce_cases _ Hs).
      destruct (idCoerce s); [discriminate|].
      destruct (accessionCoerce s) as [a|e'];
        [destruct (truthy a); [discriminate|]|]; now intros [= <-].
    + unfold idOrAccessionCoerce. rewrite Hs. discriminate.
  - intros raw e. unfold idCoerce_option, idCoerce.
    destruct (ObjectId raw) as [oid|e']; split; congruence.
Qed.

(** A string made of white space only, other than the empty string, is
    not taken as a missing identifier: when [ObjectId] throws on it,
    [idOrAccessionCoerce] throws too. *)
Theorem idOrAccessionCoerce_rejects_blank s e :
  s <> "" ->
  all_chars is_white_space s = true ->
  ObjectId s = Throw e ->
  idOrAccessionCoerce (Some s) = Throw (Error "Invalid ID or accession").
Proof.
  intros Hne Hws Hoid.
  assert (Hs : truthy s = true) by (destruct s; [contradiction | reflexivity]).
  rewrite (idOrAccessionCoerce_cases _ Hs). unfold idCoerce. rewrite Hoid.
  unfold accessionCoerce. rewrite (trim_white _ Hws). simpl.
  destruct (accessionFormat_test ""); reflexivity.
Qed.

(** Every command that coerces an identifier hands over the same object
    id for a string, other than the empty one, that [ObjectId] accepts:
    the coercion that also takes accessions never prefers the accession. *)
Theorem commands_agree_on_raw_ids c coerce raw oid :
  id_coerce_of c = Some coerce ->
  raw <> "" ->
  ObjectId raw = Normal oid ->
  coerce raw = Normal (Some (IdObject oid)).
Proof.
  intros Hc Hne Hoid.
  assert (Hs : truthy raw = true) by (destruct raw; [contradiction | reflexivity]).
  assert (Hboth : idOrAccessionCoerce (Some raw) = Normal (Some (IdObject oid))).
  { rewrite (idOrAccessionCoerce_cases _ Hs). unfold idCoerce. now rewrite Hoid. }
  assert (Hraw : idCoerce_option raw = Normal (Some (IdObject oid))).
  { unfold idCoerce_option, idCoerce. now rewrite Hoid. }
  destruct c; simpl in Hc; try discriminate; injection Hc as <-; assumption.
Qed.

(** Two inputs that differ only in case or in surrounding white space,
    neither empty and both refused by [ObjectId], get the same answer
    from [idOrAccessionCoerce]: the same accession, or the error. *)
Theorem idOrAccessionCoerce_case_padding_insensitive s t es et :
  differ_in_case_or_padding s t ->
  s <> "" -> t <> "" ->
  ObjectId s = Throw es -> ObjectId t = Throw et ->
  idOrAccessionCoerce (Some s) = idOrAccessionCoerce (Some t).
Proof.
  intros Hv Hs Ht Hos Hot.
  assert (Hs' : truthy s = true) by (destruct s; [contradiction | reflexivity]).
  assert (Ht' : truthy t = true) by (destruct t; [contradiction | reflexivity]).
  rewrite (idOrAccessionCoerce_cases _ Hs'), (idOrAccessionCoerce_cases _ Ht').
  unfold idCoerce. rewrite Hos, Hot.
  unfold accessionCoerce. now rewrite (normalize_variant _ _ Hv).
Qed.

End ResolverMore.

(** ** The path coercion *)

Section PathFacts.
Import JsString JsStringMore.

Context {fs : FileSystem}.

(** [fileOrFolderCoerce] returns a path only when it is the resolved
    path and [fs.accessSync] let it through with [X_OK]; when the check
    throws, whatever it throws is replaced by an error whose message
    holds the argument as it was given; an error of [resolvePath] is
    passed on. *)
Theorem fileOrFolderCoerce_outcomes fileOrFolder :
  (forall path,
      fileOrFolderCoerce fileOrFolder = Normal path <->
      resolvePath fileOrFolder true = Normal path /\ accessSync path X_OK = Normal tt) /\
  (forall path e,
      resolvePath fileOrFolder true = Normal path -> accessSync path X_OK = Throw e ->
      exists message,
        fileOrFolderCoerce fileOrFolder = Throw (Error message) /\
        includes message fileOrFolder = true) /\
  (forall e, resolvePath fileOrFolder true = Throw e ->
             fileOrFolderCoerce fileOrFolder = Throw e).
Proof.
  unfold fileOrFolderCoerce. split; [|split].
  - intros path. split.
    + destruct (resolvePath fileOrFolder true) as [p|e]; [|discriminate].
      destruct (accessSync p X_OK) as [[]|e] eqn:Ha; [|discriminate].
      intros [= <-]. now split.
    + intros [Hr Ha]. now rewrite Hr, Ha.
  - intros path e Hr Ha. rewrite Hr, Ha. eexists. split; [reflexivity|].
    apply (includes_between "unable to use file/folder '" fileOrFolder "'").
  - intros e Hr. now rewrite Hr.
Qed.

End PathFacts.

(** ** More on the delete command *)

Section DeleteMore.

Context {driver : MongoDriver} {runtime : Runtime}.

Ltac run_all :=
  unfold deleteFunction, deleteFunction_in, confirmation_step, deletionProtocol,
    console_log, console_error, bind, lift, call, emit, ret, throw, after, title in *;
  simpl in *.

Ltac ends_nil :=
  split; [reflexivity | left; split; [reflexivity | eexists; reflexivity]].

Ltac ends_sync :=
  split; [reflexivity | right; left; do 2 eexists; split; reflexivity].

Lemma strict_eq_string_true v lit : strict_eq_string v lit = true <-> v = JsStr lit.
Proof.
  destruct v; simpl; split; try discriminate.
  - intros H. apply String.eqb_eq in H. now subst.
  - intros [= ->]. apply String.eqb_refl.
Qed.

(** What one run of the protocol leaves behind: nothing and an error; a
    call of [syncProject] alone and an error; or a call of [syncProject]
    followed by one delete call. *)
Lemma deletionProtocol_shape database target documentName w :
  exists h rest,
    snd (deletionProtocol database target documentName w) = after w h rest /\
    ((rest = [] /\ exists e, fst (deletionProtocol database target documentName w) = Throw e) \/
     (exists p e, rest = [SyncProject p] /\
                  fst (deletionProtocol database target documentName w) = Throw e) \/
     (exists p n m, rest = [SyncProject p; DeleteAnalysis n m]) \/
     (exists p f m, rest = [SyncProject p; DeleteFile f m])).
Proof.
  run_all.
  destruct (Collection_eq_dec (collection target) (analyses database)) as [Ha|Ha];
    [|destruct (Collection_eq_dec (collection target) (files database)) as [Hf|Hf]].
  - destruct (getProp (document target) "project") as [project|e]; simpl.
    2:{ exists (handler w), []. rewrite app_nil_r. destruct w; simpl. ends_nil. }
    destruct (syncProject database project (handler w)) as [[v|e] h]; simpl.
    2:{ exists h, [SyncProject project]. ends_sync. }
    destruct (getProp (document target) "name") as [name|e]; simpl.
    2:{ exists h, [SyncProject project]. ends_sync. }
    destruct (getProp (document target) "md") as [mdIndex|e]; simpl.
    2:{ exists h, [SyncProject project]. ends_sync. }
    destruct (deleteAnalysis database name mdIndex h) as [r h']; simpl.
    exists h', [SyncProject project; DeleteAnalysis name mdIndex].
    rewrite <- app_assoc. split; [reflexivity|]. right. right. left. eauto.
  - destruct (getProp (document target) "metadata") as [metadata|e]; simpl.
    2:{ exists (handler w), []. rewrite app_nil_r. destruct w; simpl. ends_nil. }
    destruct (getProp metadata "project") as [project|e]; simpl.
    2:{ exists (handler w), []. rewrite app_nil_r. destruct w; simpl. ends_nil. }
    destruct (syncProject database project (handler w)) as [[v|e] h]; simpl.
    2:{ exists h, [SyncProject project]. ends_sync. }
    destruct (getProp (document target) "filename") as [filename|e]; simpl.
    2:{ exists h, [SyncProject project]. ends_sync. }
    destruct (getProp metadata "md") as [mdIndex|e]; simpl.
    2:{ exists h, [SyncProject project]. ends_sync. }
    destruct (deleteFile database filename mdIndex h) as [r h']; simpl.
    exists h', [SyncProject project; DeleteFile filename mdIndex].
    rewrite <- app_assoc. split; [reflexivity|]. right. right. right. eauto.
  - exists (handler w), []. rewrite app_nil_r. destruct w; simpl. ends_nil.
Qed.

Lemma deleteFunction_nothing_found uc args database w h0 :
  findId database (id args) (handler w) = (Normal None, h0) ->
  deleteFunction_in uc args database w
  = (Normal JsUndefined,
     after w h0
       [ConsoleLog (title args); FindId (id args);
        ConsoleError
          (chalk_yellow ("Nothing found for ID '" ++ id_toString (id args) ++ "'"))]).
Proof.
  intros Hfind. run_all. rewrite Hfind. simpl. now rewrite <- !app_assoc.
Qed.

Lemma deleteFunction_lookup_rejected uc args database w e h0 :
  findId database (id args) (handler w) = (Throw e, h0) ->
  deleteFunction_in uc args database w
  = (Throw e, after w h0 [ConsoleLog (title args); FindId (id args)]).
Proof.
  intros Hfind. run_all. rewrite Hfind. simpl. now rewrite <- !app_assoc.
Qed.

(** When [findId] resolves to nothing the command, whatever [confirm]
    and whatever is bound to [userConfirm], reports it on the error
    stream and returns normally: no error, no prompt, nothing read from
    standard input, no call of [syncProject], [deleteAnalysis] or
    [deleteFile]. *)
Theorem nothing_found_is_reported uc args database w h0 :
  findId database (id args) (handler w) = (Normal None, h0) ->
  deleteFunction_in uc args database w
  = (Normal JsUndefined,
     after w h0
       [ConsoleLog (title args); FindId (id args);
        ConsoleError
          (chalk_yellow ("Nothing found for ID '" ++ id_toString (id args) ++ "'"))]) /\
  sync_and_delete_calls (trace (snd (deleteFunction_in uc args database w)))
  = sync_and_delete_calls (trace w) /\
  prompts (trace (snd (deleteFunction_in uc args database w))) = prompts (trace w).
Proof.
  intros Hfind. rewrite (deleteFunction_nothing_found uc _ _ _ _ Hfind).
  split; [reflexivity|]. simpl.
  rewrite sync_and_delete_calls_app, prompts_app. simpl. now rewrite !app_nil_r.
Qed.

(** When [findId] rejects, the command rejects with the same error right
    after the lookup, whatever [confirm] and whatever is bound to
    [userConfirm], and has called neither [syncProject],
    [deleteAnalysis] nor [deleteFile]. *)
Theorem lookup_rejection_is_passed_on uc args database w e h0 :
  findId database (id args) (handler w) = (Throw e, h0) ->
  deleteFunction_in uc args database w
  = (Throw e, after w h0 [ConsoleLog (title args); FindId (id args)]) /\
  sync_and_delete_calls (trace (snd (deleteFunction_in uc args database w)))
  = sync_and_delete_calls (trace w).
Proof.
  intros Hfind. rewrite (deleteFunction_lookup_rejected uc _ _ _ _ _ Hfind).
  split; [reflexivity|]. simpl.
  rewrite sync_and_delete_calls_app. simpl. now rewrite !app_nil_r.
Qed.

(** Every run of the command logs the title, looks the id up once and
    then leaves one of five endings: nothing more, with an error; the
    not-found report, with a normal return of [undefined]; a call of
    [syncProject] alone, with an error; a call of [syncProject] followed
    by one call of [deleteAnalysis]; or a call of [syncProject] followed
    by one call of [deleteFile]. So a delete call is always the last
    event and always directly preceded by a call of [syncProject], and
    standard input is never read. *)
Theorem deleteFunction_trace_shape args database w :
  exists h rest,
    snd (deleteFunction args database w)
    = after w h (ConsoleLog (title args) :: FindId (id args) :: rest) /\
    ((rest = [] /\ exists e, fst (deleteFunction args database w) = Throw e) \/
     (rest = [ConsoleError
                (chalk_yellow ("Nothing found for ID '" ++ id_toString (id args) ++ "'"))] /\
      fst (deleteFunction args database w) = Normal JsUndefined) \/
     (exists p e, rest = [SyncProject p] /\
                  fst (deleteFunction args database w) = Throw e) \/
     (exists p n m, rest = [SyncProject p; DeleteAnalysis n m]) \/
     (exists p f m, rest = [SyncProject p; DeleteFile f m])).
Proof.
  destruct (findId database (id args) (handler w)) as [[[target|]|e] h0] eqn:Hfind.
  - destruct (confirm args) eqn:Hconfirm.
    + unfold deleteFunction.
      rewrite (deleteFunction_confirmed None _ _ _ _ _ Hconfirm Hfind).
      destruct (deletionProtocol_shape database target
                  (nameCollectionDocument database (collection target))
                  (after w h0 [ConsoleLog (title args); FindId (id args)]))
        as (h & rest & Hsnd & Hshape).
      exists h, rest. split.
      * rewrite Hsnd. now rewrite after_after.
      * destruct Hshape as [H|[H|[H|H]]].
        -- left. exact H.
        -- right. right. left. exact H.
        -- right. right. right. left. exact H.
        -- right. right. right. right. exact H.
    + unfold deleteFunction. rewrite (deleteFunction_found None _ _ _ _ _ Hfind).
      unfold confirmation_step, bind, throw. rewrite Hconfirm. simpl.
      exists h0, []. ends_nil.
  - unfold deleteFunction. rewrite (deleteFunction_nothing_found None _ _ _ _ Hfind).
    exists h0. eexists. split; [reflexivity|]. right. left. auto.
  - unfold deleteFunction. rewrite (deleteFunction_lookup_rejected None _ _ _ _ _ Hfind).
    exists h0, []. ends_nil.
Qed.

(** Without [confirm] the command never calls [syncProject],
    [deleteAnalysis] or [deleteFile], for any handler and whatever the
    lookup gives; it writes no prompt, reads nothing from standard input,
    and leaves the handler as the lookup left it. *)
Theorem unconfirmed_never_syncs_or_deletes args database w :
  confirm args = false ->
  sync_and_delete_calls (trace (snd (deleteFunction args database w)))
  = sync_and_delete_calls (trace w) /\
  prompts (trace (snd (deleteFunction args database w))) = prompts (trace w) /\
  stdin (snd (deleteFunction args database w)) = stdin w /\
  handler (snd (deleteFunction args database w))
  = snd (findId database (id args) (handler w)).
Proof.
  intros Hconfirm.
  destruct (findId database (id args) (handler w)) as [[[target|]|e] h0] eqn:Hfind.
  - unfold deleteFunction. rewrite (deleteFunction_found None _ _ _ _ _ Hfind).
    unfold confirmation_step, bind, throw. rewrite Hconfirm. simpl.
    rewrite sync_and_delete_calls_app, prompts_app. simpl.
    now rewrite !app_nil_r.
  - unfold deleteFunction. rewrite (deleteFunction_nothing_found None _ _ _ _ Hfind). simpl.
    rewrite sync_and_delete_calls_app, prompts_app. simpl.
    now rewrite !app_nil_r.
  - unfold deleteFunction. rewrite (deleteFunction_lookup_rejected None _ _ _ _ _ Hfind).
    simpl. rewrite sync_and_delete_calls_app, prompts_app. simpl.
    now rewrite !app_nil_r.
Qed.

(** On a target of the files collection whose document has no
    [metadata] (the property is missing or [null]) the protocol throws a
    [TypeError] while it reads [metadata.project], before any call: with
    confirmation skipped the command ends with that error and has called
    neither [syncProject] nor [deleteFile]. *)
Theorem file_without_metadata_throws database target properties :
  collection target = files database ->
  files database <> analyses database ->
  document target = JsObject properties ->
  own_property properties "metadata" = JsUndefined \/
  own_property properties "metadata" = JsNull ->
  (forall documentName w,
      exists message,
        deletionProtocol database target documentName w = (Throw (TypeError message), w)) /\
  (forall args w h0,
      confirm args = true ->
      findId database (id args) (handler w) = (Normal (Some target), h0) ->
      exists message,
        deleteFunction args database w
        = (Throw (TypeError message),
           after w h0 [ConsoleLog (title args); FindId (id args)])).
Proof.
  intros Hc Hne Hd Hm.
  assert (Hp : forall documentName w,
             exists message,
               deletionProtocol database target documentName w
               = (Throw (TypeError message), w)).
  { intros documentName w. run_all. rewrite Hd. simpl.
    destruct (Collection_eq_dec (collection target) (analyses database)) as [E|_];
      [congruence|].
    destruct (Collection_eq_dec (collection target) (files database)) as [_|Hn];
      [|contradiction].
    destruct Hm as [-> | ->]; simpl; eauto. }
  split; [exact Hp|].
  intros args w h0 Hconfirm Hfind. unfold deleteFunction.
  rewrite (deleteFunction_confirmed None _ _ _ _ _ Hconfirm Hfind).
  apply Hp.
Qed.

(** Lines 20 to 23 under a binding of [userConfirm]: when the target is
    found and [confirm] is not set, the answer decides. If the call
    resolves to the string [y] or [Y] the command runs the protocol in
    the world the call left; if it resolves to any other value, a longer
    affirmative such as [yes] included, the command logs the abort
    message and returns without any further call; if it rejects, the
    command rejects with the same error. *)
Theorem answer_decides ask args database w target h0 :
  confirm args = false ->
  findId database (id args) (handler w) = (Normal (Some target), h0) ->
  let documentName := nameCollectionDocument database (collection target) in
  let asked :=
    ask ("Confirm deletion of of " ++ documentName ++ " with id "
         ++ id_toString (id args) ++ " [y/*]")
        (after w h0 [ConsoleLog (title args); FindId (id args)]) in
  (forall v w2, asked = (Normal v, w2) -> v = JsStr "y" \/ v = JsStr "Y" ->
                deleteFunction_in (Some ask) args database w
                = deletionProtocol database target documentName w2) /\
  (forall v w2, asked = (Normal v, w2) -> v <> JsStr "y" -> v <> JsStr "Y" ->
                deleteFunction_in (Some ask) args database w
                = (Normal JsUndefined,
                   after w2 (handler w2) [ConsoleLog "Data deletion has been aborted"])) /\
  (forall e w2, asked = (Throw e, w2) ->
                deleteFunction_in (Some ask) args database w = (Throw e, w2)).
Proof.
  intros Hconfirm Hfind documentName asked.
  rewrite (deleteFunction_found (Some ask) _ _ _ _ _ Hfind).
  unfold confirmation_step, bind, ret. rewrite Hconfirm.
  cbv zeta. cbn [negb]. subst documentName asked.
  split; [|split].
  - intros v w2 Hask Hv. rewrite Hask. destruct Hv as [-> | ->]; reflexivity.
  - intros v w2 Hask Hy HY. rewrite Hask.
    destruct (strict_eq_string v "y") eqn:Ey;
      [apply strict_eq_string_true in Ey; contradiction|].
    destruct (strict_eq_string v "Y") eqn:EY;
      [apply strict_eq_string_true in EY; contradiction|].
    reflexivity.
  - intros e w2 Hask. rewrite Hask. reflexivity.
Qed.

End DeleteMore.

(** ** The further properties on examples *)

(** With no prefix in the environment, a well-formed accession is refused. *)
Lemma accessionCoerce_lower_case_prefix_rejects_all_witness :
  @accessionCoerce Offline.env_unset " mcns00042"
  = Throw (Error "Not a valid accession").
Proof.
  apply (@accessionCoerce_lower_case_prefix_rejects_all Offline.env_unset);
    reflexivity.
Defined.

(** The accession ["MCNS00042"] is accepted from [" mcns00042 "]. *)
Lemma accessionCoerce_accepts_exactly_witness :
  @accessionCoerce env_MCNS " mcns00042 " = Normal "MCNS00042".
Proof.
  apply (proj1 (@accessionCoerce_accepts_exactly env_MCNS " mcns00042 "
                  eq_refl eq_refl)).
  split; [reflexivity|]. exists "00042". repeat split; reflexivity.
Defined.

(** On ["foo"] the option [coerce: idCoerce] throws the error of [ObjectId]. *)
Lemma idOrAccessionCoerce_only_error_witness :
  @idCoerce_option bson_driver "foo"
  = Throw (TypeError
      "Argument passed in must be a single String of 12 bytes or a string of 24 hex characters").
Proof.
  apply (proj2 (@idOrAccessionCoerce_only_error bson_driver env_MCNS)).
  reflexivity.
Defined.

(** Two spaces are refused, not taken as no identifier. *)
Lemma idOrAccessionCoerce_rejects_blank_witness :
  @idOrAccessionCoerce bson_driver env_MCNS (Some "  ")
  = Throw (Error "Invalid ID or accession").
Proof.
  assert (Hne : "  " <> "") by discriminate.
  eapply (@idOrAccessionCoerce_rejects_blank bson_driver env_MCNS "  " _ Hne);
    reflexivity.
Defined.

(** [unpublish] on a 12 byte id. *)
Lemma commands_agree_on_raw_ids_witness :
  (fun raw => @idOrAccessionCoerce bson_driver env_MCNS (Some raw)) "0123456789ab"
  = Normal (Some Demo.oid).
Proof.
  assert (Hne : "0123456789ab" <> "") by discriminate.
  apply (@commands_agree_on_raw_ids bson_driver env_MCNS cmd_unpublish _
           "0123456789ab" "0123456789ab" eq_refl Hne).
  reflexivity.
Defined.

(** [" mcns00042"] and ["MCNS00042  "] through [idOrAccessionCoerce]. *)
Lemma idOrAccessionCoerce_case_padding_insensitive_witness :
  @idOrAccessionCoerce bson_driver env_MCNS (Some " mcns00042")
  = @idOrAccessionCoerce bson_driver env_MCNS (Some "MCNS00042  ").
Proof.
  assert (Hv : Variant.differ_in_case_or_padding " mcns00042" "MCNS00042  ").
  { exists " ", "", "", "  ", "mcns00042", "MCNS00042". repeat split; reflexivity. }
  assert (Hs : " mcns00042" <> "") by discriminate.
  assert (Ht : "MCNS00042  " <> "") by discriminate.
  eapply (@idOrAccessionCoerce_case_padding_insensitive bson_driver env_MCNS
            _ _ _ _ Hv Hs Ht); reflexivity.
Defined.

(** A directory that is there, and one that is not. *)
Lemma fileOrFolderCoerce_outcomes_witness :
  @fileOrFolderCoerce Offline.fs "project" = Normal "/data/project" /\
  exists message,
    @fileOrFolderCoerce Offline.fs "missing" = Throw (Error message) /\
    JsString.includes message "missing" = true.
Proof.
  split.
  - apply (proj1 (@fileOrFolderCoerce_outcomes Offline.fs "project")).
    split; reflexivity.
  - eapply (proj1 (proj2 (@fileOrFolderCoerce_outcomes Offline.fs "missing")));
      reflexivity.
Defined.

(** The lookup in an empty store. *)
Lemma nothing_found_is_reported_witness :
  deleteFunction (Demo.args false) Demo.database (Demo.world Offline.empty_store ["y"])
  = (Normal JsUndefined,
     {| handler := Offline.empty_store;
        stdin := ["y"];
        trace := [ConsoleLog "== Deletion of '303132333435363738396162'";
                  FindId Demo.oid;
                  ConsoleError "Nothing found for ID '303132333435363738396162'"] |}).
Proof.
  unfold deleteFunction.
  destruct (@nothing_found_is_reported bson_driver Demo.runtime None (Demo.args false)
              Demo.database (Demo.world Offline.empty_store ["y"]) Offline.empty_store
              eq_refl) as [Hrun _].
  rewrite Hrun. reflexivity.
Defined.

(** A lookup that rejects. *)
Lemma lookup_rejection_is_passed_on_witness :
  let store := Demo.store_of Demo.Analyses Demo.analysis_properties in
  deleteFunction (Demo.args true) Offline.database (Demo.world store [])
  = (Throw (Error "connection closed"),
     {| handler := store;
        stdin := [];
        trace := [ConsoleLog "== Deletion of '303132333435363738396162'";
                  FindId Demo.oid] |}).
Proof.
  intros store. unfold deleteFunction.
  destruct (@lookup_rejection_is_passed_on bson_driver Demo.runtime None (Demo.args true)
              Offline.database (Demo.world store []) _ store eq_refl) as [Hrun _].
  rewrite Hrun. reflexivity.
Defined.

(** A found analysis, without [confirm]. *)
Lemma unconfirmed_never_syncs_or_deletes_witness :
  sync_and_delete_calls
    (trace (snd (deleteFunction (Demo.args false) Demo.database
                   (Demo.world (Demo.store_of Demo.Analyses Demo.analysis_properties)
                      ["y"]))))
  = [].
Proof.
  destruct (@unconfirmed_never_syncs_or_deletes bson_driver Demo.runtime
              (Demo.args false) Demo.database
              (Demo.world (Demo.store_of Demo.Analyses Demo.analysis_properties) ["y"])
              eq_refl) as [H _].
  rewrite H. reflexivity.
Defined.

(** The file document [{filename: "traj.xtc"}]. *)
Lemma file_without_metadata_throws_witness :
  let store := Demo.store_of Demo.Files Offline.file_properties_bare in
  exists message,
    deleteFunction (Demo.args true) Demo.database (Demo.world store [])
    = (Throw (TypeError message),
       {| handler := store;
          stdin := [];
          trace := [ConsoleLog "== Deletion of '303132333435363738396162'";
                    FindId Demo.oid] |}).
Proof.
  intros store.
  assert (Hne : @files bson_driver Demo.runtime Demo.database
                <> @analyses bson_driver Demo.runtime Demo.database) by discriminate.
  destruct (@file_without_metadata_throws bson_driver Demo.runtime Demo.database
              (Demo.target_of Demo.Files Offline.file_properties_bare)
              Offline.file_properties_bare eq_refl Hne eq_refl (or_introl eq_refl))
    as [_ H].
  destruct (H (Demo.args true) (Demo.world store []) store eq_refl eq_refl)
    as [message Hrun].
  exists message. rewrite Hrun. reflexivity.
Defined.

(** The answer [yes] is a refusal. *)
Lemma answer_decides_witness :
  let store := Demo.store_of Demo.Analyses Demo.analysis_properties in
  deleteFunction_in (Some (Offline.answer (JsStr "yes"))) (Demo.args false)
    Demo.database (Demo.world store [])
  = (Normal JsUndefined,
     {| handler := store;
        stdin := [];
        trace := [ConsoleLog "== Deletion of '303132333435363738396162'";
                  FindId Demo.oid;
                  ConsoleLog "Data deletion has been aborted"] |}).
Proof.
  intros store.
  destruct (@answer_decides bson_driver Demo.runtime (Offline.answer (JsStr "yes"))
              (Demo.args false) Demo.database (Demo.world store [])
              (Demo.target_of Demo.Analyses Demo.analysis_properties) store
              eq_refl eq_refl) as (_ & Hno & _).
  assert (Hy : JsStr "yes" <> JsStr "y") by discriminate.
  assert (HY : JsStr "yes" <> JsStr "Y") by discriminate.
  exact (Hno (JsStr "yes") _ eq_refl Hy HY).
Defined.
